(** * ResearchForm: a research-project submission form

    A shallow embedding of [src/components/ResearchForm.tsx].  The component
    keeps a draft of five fields, validates it against [formSchema] when the
    user submits, notifies through a toast, forwards the draft to an optional
    consumer callback and resets itself.

    Conventions.
    - Text typed by the user, file names and data URLs are JavaScript strings:
      sequences of UTF-16 code units, so that [length] is the [.length] that
      the schema compares against.  Literal texts of the source (messages,
      field names) are kept as they are written there.
    - The component's state (react-hook-form's values and [formState], and
      the two [useState] cells) is a record threaded through a small monad
      which also records every primitive operation that was performed,
      together with the state right after it, and which can throw. *)

From Stdlib Require Import NArith Ascii String.
From stdpp Require Import gmap strings list fin_maps.

Local Open Scope string_scope.
Local Open Scope nat_scope.
Local Open Scope list_scope.
Local Open Scope stdpp_scope.

(** ** Values *)

(** A UTF-16 code unit, and a JavaScript string. *)
Definition code_unit := N.
Definition jsstring := list code_unit.

(** The code units of a literal made of ASCII characters only. *)
Fixpoint js (s : string) : jsstring :=
  match s with
  | EmptyString => []
  | String c rest => N_of_ascii c :: js rest
  end.

(** A browser [File]: [name] is what [handleFileChange] displays; the
    content is never inspected by the component. *)
Record File := { name : jsstring; content : list N }.

(** A browser [FileList]. *)
Definition FileList := list File.

(** The values a field of the form can hold at run time. *)
Inductive jsval :=
| JUndefined
| JNull
| JString (s : jsstring)
| JFileList (fl : FileList).

(** [type FormData = z.infer<typeof formSchema>]: three strings and two
    optional file lists. *)
Record FormData := {
  title : jsstring;
  abstract : jsstring;
  researcher : jsstring;
  image : option FileList;
  researchFile : option FileList;
}.

(** Property access [data[k]] on a draft. *)
Definition optional_value (o : option FileList) : jsval :=
  match o with
  | Some fl => JFileList fl
  | None => JUndefined
  end.

Definition field_value (d : FormData) (k : string) : jsval :=
  if String.eqb k "title" then JString (title d)
  else if String.eqb k "abstract" then JString (abstract d)
  else if String.eqb k "researcher" then JString (researcher d)
  else if String.eqb k "image" then optional_value (image d)
  else if String.eqb k "researchFile" then optional_value (researchFile d)
  else JUndefined.

(** ** The zod combinators used by [formSchema] *)

Module Zod.

(** An issue raised by a parse: where, and the message. *)
Record issue := { path : string; message : string }.

(** A schema maps a value to the messages of the issues it raises; no
    message means the value is accepted. *)
Definition schema := jsval -> list string.

(** A refinement of a string, such as [.min(n, message)]. *)
Definition check := jsstring -> option string.

(** Modelled from the spec: zod's [.min(n, message)] is library code; the
    spec words the rule as "length ≥ n" with one message per field. *)
Definition min (n : nat) (msg : string) : check :=
  fun s => if length s <? n then Some msg else None.

(** Modelled from the spec: zod's [z.string()] followed by its checks is
    library code.  A value that is not a string raises a type issue and
    the checks are not run; on a string every check is run. *)
Definition string_ (checks : list check) : schema :=
  fun v =>
    match v with
    | JString s => omap (fun c => c s) checks
    | JUndefined => ["Required"]
    | JNull => ["Expected string, received null"]
    | JFileList _ => ["Expected string, received object"]
    end.

(** Modelled from the spec: [z.instanceof(FileList)] is library code; it
    accepts exactly the file lists. *)
Definition instanceof_FileList : schema :=
  fun v =>
    match v with
    | JFileList _ => []
    | _ => ["Input not instance of FileList"]
    end.

(** Modelled from the spec: [.optional()] is library code; the spec calls
    the two file fields "optional with no further constraint". *)
Definition optional (inner : schema) : schema :=
  fun v =>
    match v with
    | JUndefined => []
    | _ => inner v
    end.

(** Modelled from the spec: [z.object(shape)] is library code; every key
    of the shape is parsed, in the order of the shape, and the issues are
    collected with the key as their path. *)
Definition object (shape : list (string * schema)) (d : FormData) : list issue :=
  flat_map
    (fun '(k, sch) => map (fun m => {| path := k; message := m |}) (sch (field_value d k)))
    shape.

End Zod.

(** [formSchema], lines 13-19 of the source. *)
Definition formSchema : FormData -> list Zod.issue :=
  Zod.object
    [ ("title", Zod.string_ [Zod.min 1 "กรุณาใส่ชื่อโครงการ"]);
      ("abstract", Zod.string_ [Zod.min 10 "บทคัดย่อต้องมีอย่างน้อย 10 ตัวอักษร"]);
      ("researcher", Zod.string_ [Zod.min 1 "กรุณาใส่ชื่อนักวิจัย"]);
      ("image", Zod.optional Zod.instanceof_FileList);
      ("researchFile", Zod.optional Zod.instanceof_FileList) ].

(** ** The state of a mounted component *)

(** The draft of a freshly mounted, or reset, form: the three inputs are
    blank and no file is attached. *)
Definition emptyFormData : FormData :=
  {| title := []; abstract := []; researcher := [];
     image := None; researchFile := None |}.

(** [values], [errors] and [isSubmitting] live in [useForm];
    [imagePreview] and [fileName] are the two [useState] cells (lines 29-30);
    [readers] are the [FileReader]s whose read has not completed yet, oldest
    first. *)
Record State := {
  values : FormData;
  errors : gmap string string;
  isSubmitting : bool;
  imagePreview : option jsstring;
  fileName : option jsstring;
  readers : list File;
}.

Definition initialState : State :=
  {| values := emptyFormData; errors := ∅; isSubmitting := false;
     imagePreview := None; fileName := None; readers := [] |}.

Definition with_values (f : FormData -> FormData) (s : State) : State :=
  {| values := f (values s); errors := errors s; isSubmitting := isSubmitting s;
     imagePreview := imagePreview s; fileName := fileName s; readers := readers s |}.

Definition with_errors (e : gmap string string) (s : State) : State :=
  {| values := values s; errors := e; isSubmitting := isSubmitting s;
     imagePreview := imagePreview s; fileName := fileName s; readers := readers s |}.

Definition with_isSubmitting (b : bool) (s : State) : State :=
  {| values := values s; errors := errors s; isSubmitting := b;
     imagePreview := imagePreview s; fileName := fileName s; readers := readers s |}.

Definition with_imagePreview (v : option jsstring) (s : State) : State :=
  {| values := values s; errors := errors s; isSubmitting := isSubmitting s;
     imagePreview := v; fileName := fileName s; readers := readers s |}.

Definition with_fileName (v : option jsstring) (s : State) : State :=
  {| values := values s; errors := errors s; isSubmitting := isSubmitting s;
     imagePreview := imagePreview s; fileName := v; readers := readers s |}.

Definition with_readers (f : list File -> list File) (s : State) : State :=
  {| values := values s; errors := errors s; isSubmitting := isSubmitting s;
     imagePreview := imagePreview s; fileName := fileName s; readers := f (readers s) |}.

(** ** Operations, and the monad that sequences them *)

(** The argument of [toast]. *)
Record ToastProps := {
  toast_title : string;
  description : string;
  variant : option string;
}.

(** The primitive operations the component performs. *)
Inductive Event :=
| Validate (data : FormData)
| ConsoleLog (label : string) (data : FormData)
| Toast (t : ToastProps)
| OnSubmit (data : FormData)
| Reset
| SetImagePreview (v : option jsstring)
| SetFileName (v : option jsstring)
| SetValue (field : string) (v : option FileList)
| ReadAsDataURL (f : File).

(** One operation, and the state right after it. *)
Record Step := { event : Event; after : State }.

Definition events (t : list Step) : list Event := map event t.

(** A statement either completes with a value or throws. *)
Inductive Result (A : Type) :=
| Ok (a : A)
| Thrown.
Arguments Ok {A} a.
Arguments Thrown {A}.

Definition M (A : Type) : Type := State -> Result A * State * list Step.

#[global] Instance M_ret : MRet M := fun A a s => (Ok a, s, []).

#[global] Instance M_bind : MBind M := fun A B k m s =>
  match m s with
  | (Ok a, s1, t1) => let '(r, s2, t2) := k a s1 in (r, s2, t1 ++ t2)
  | (Thrown, s1, t1) => (Thrown, s1, t1)
  end.

(** The empty statement. *)
Definition skip : M unit := mret ().

(** [try { body } catch (error) { handler }]: what the body did before it
    threw stays done. *)
Definition try_catch {A} (body handler : M A) : M A := fun s =>
  match body s with
  | (Ok a, s1, t1) => (Ok a, s1, t1)
  | (Thrown, s1, t1) => let '(r, s2, t2) := handler s1 in (r, s2, t1 ++ t2)
  end.

(** An operation that cannot throw: it is recorded with the state it
    leaves. *)
Definition perform (e : Event) (f : State -> State) : M unit := fun s =>
  (Ok (), f s, [ {| event := e; after := f s |} ]).

(** What a call of the consumer callback does, as far as the component can
    tell. *)
Inductive Outcome := Returns | Throws.

(** [onSubmit(data)]: the call is recorded, then it returns or throws. *)
Definition call (cb : FormData -> Outcome) (data : FormData) : M unit := fun s =>
  match cb data with
  | Returns => (Ok (), s, [ {| event := OnSubmit data; after := s |} ])
  | Throws => (Thrown, s, [ {| event := OnSubmit data; after := s |} ])
  end.

(** [console.log(label, data)] and [toast(props)] touch nothing of the
    component. *)
Definition console_log (label : string) (data : FormData) : M unit :=
  perform (ConsoleLog label data) id.

Definition toast (t : ToastProps) : M unit :=
  perform (Toast t) id.

(** The setters of the two [useState] cells. *)
Definition setImagePreview (v : option jsstring) : M unit :=
  perform (SetImagePreview v) (with_imagePreview v).

Definition setFileName (v : option jsstring) : M unit :=
  perform (SetFileName v) (with_fileName v).

(** [reader.readAsDataURL(file)] starts a read and returns at once. *)
Definition readAsDataURL (f : File) : M unit :=
  perform (ReadAsDataURL f) (with_readers (fun rs => rs ++ [f])).

(** ** react-hook-form *)

Definition set_field (field : string) (v : option FileList) (d : FormData) : FormData :=
  if String.eqb field "image" then
    {| title := title d; abstract := abstract d; researcher := researcher d;
       image := v; researchFile := researchFile d |}
  else if String.eqb field "researchFile" then
    {| title := title d; abstract := abstract d; researcher := researcher d;
       image := image d; researchFile := v |}
  else d.

(** Modelled from the spec: [setValue] of [useForm] is library code; "the
    file handle itself is stored in the draft": the named field takes the
    value, nothing else changes and nothing is validated. *)
Definition setValue (field : string) (v : option FileList) : M unit :=
  perform (SetValue field v) (with_values (set_field field v)).

(** Modelled from the spec: [reset] of [useForm] is library code; "a reset
    operation clearing all fields and derived UI state to their initial empty
    values".  The derived state kept by [useForm] is the error map and
    [isSubmitting]: both go back to their initial value, so a [reset] called
    while a submit is running lowers the flag. *)
Definition reset : M unit :=
  perform Reset
    (fun s => with_isSubmitting false
                (with_errors ∅ (with_values (fun _ => emptyFormData) s))).

(** Modelled from the spec: [zodResolver] is library code; "each invalid
    field receives exactly one human-readable message": the first issue of a
    path is kept. *)
Definition toErrors (issues : list Zod.issue) : gmap string string :=
  fold_left
    (fun errs i =>
       match errs !! Zod.path i with
       | Some _ => errs
       | None => <[Zod.path i := Zod.message i]> errs
       end)
    issues ∅.

Definition zodResolver (sch : FormData -> list Zod.issue) (d : FormData) : gmap string string :=
  toErrors (sch d).

(** Modelled from the spec: [handleSubmit] of [useForm] is library code.
    "A submit trigger that runs full-schema validation before invoking the
    pipeline"; "on failure ... submission is blocked"; [isSubmitting] is "set
    true for the duration of the submit handler, false afterward regardless
    of outcome". *)
Definition handleSubmit (resolver : FormData -> gmap string string)
    (onValid : FormData -> M unit) : M unit := fun s =>
  let s1 := with_isSubmitting true s in
  let data := values s1 in
  let errs := resolver data in
  let '(r, s2, t) :=
    (perform (Validate data) (with_errors errs) ;;
     if decide (errs = ∅) then onValid data else skip) s1 in
  (r, with_isSubmitting false s2, t).

(** ** The component (lines 27-257) *)

Section ResearchForm.

(** [ResearchFormProps]: the optional consumer callback. *)
Variable onSubmit : option (FormData -> Outcome).

(** Line 39: [resolver: zodResolver(formSchema)]. *)
Definition resolver : FormData -> gmap string string := zodResolver formSchema.

(** Lines 42-52.  [file] is [e.target.files?.[0]]. *)
Definition handleImageChange (files : option FileList) : M unit :=
  let file := files ≫= head in
  match file with
  | Some f =>
      readAsDataURL f ;;
      setValue "image" files
  | None => skip
  end.

(** Lines 46-48: [reader.onload], run when the read of the [i]-th pending
    reader completes with [result]. *)
Definition reader_onload (i : nat) (result : jsstring) : M unit := fun s =>
  match readers s !! i with
  | Some _ => setImagePreview (Some result) (with_readers (delete i) s)
  | None => skip s
  end.

(** Lines 54-60. *)
Definition handleFileChange (files : option FileList) : M unit :=
  let file := files ≫= head in
  match file with
  | Some f =>
      setFileName (Some (name f)) ;;
      setValue "researchFile" files
  | None => skip
  end.

Definition success_toast : ToastProps :=
  {| toast_title := "บันทึกข้อมูลสำเร็จ";
     description := "ข้อมูลโครงการวิจัยได้ถูกบันทึกแล้ว";
     variant := None |}.

Definition failure_toast : ToastProps :=
  {| toast_title := "เกิดข้อผิดพลาด";
     description := "ไม่สามารถบันทึกข้อมูลได้ กรุณาลองใหม่อีกครั้ง";
     variant := Some "destructive" |}.

(** Lines 62-86. *)
Definition handleFormSubmit (data : FormData) : M unit :=
  try_catch
    (console_log "ข้อมูลที่ส่ง:" data ;;
     toast success_toast ;;
     match onSubmit with
     | Some cb => call cb data
     | None => skip
     end ;;
     reset ;;
     setImagePreview None ;;
     setFileName None)
    (toast failure_toast).

(** Line 106: [<form onSubmit={handleSubmit(handleFormSubmit)}>]. *)
Definition form_onSubmit : M unit := handleSubmit resolver handleFormSubmit.

(** Lines 231-237: the submit button is [disabled={isSubmitting}]; a
    disabled button submits nothing. *)
Definition submit_disabled (s : State) : bool := isSubmitting s.

Definition click_submit : M unit := fun s =>
  if submit_disabled s then skip s else form_onSubmit s.

(** Lines 238-249: the [onClick] of the clear button. *)
Definition click_reset : M unit :=
  reset ;;
  setImagePreview None ;;
  setFileName None.

End ResearchForm.

(** ** Reading a run *)

Definition result_of {A} (m : M A) (s : State) : Result A := (m s).1.1.
Definition state_after {A} (m : M A) (s : State) : State := (m s).1.2.
Definition trace_of {A} (m : M A) (s : State) : list Step := (m s).2.
Definition events_of {A} (m : M A) (s : State) : list Event := events (trace_of m s).

(** The notifications among some events, in order. *)
Definition toasts (es : list Event) : list ToastProps :=
  omap (fun e => match e with Toast t => Some t | _ => None end) es.

(** The constraints of the data model on a draft. *)
Definition valid (d : FormData) : Prop :=
  title d ≠ [] ∧ 10 ≤ length (abstract d) ∧ researcher d ≠ [].

(** The messages of [formSchema], and the issue a violated rule raises. *)
Definition msg_title : string := "กรุณาใส่ชื่อโครงการ".
Definition msg_abstract : string := "บทคัดย่อต้องมีอย่างน้อย 10 ตัวอักษร".
Definition msg_researcher : string := "กรุณาใส่ชื่อนักวิจัย".

Definition issue_if (b : bool) (k m : string) : list Zod.issue :=
  if b then [ {| Zod.path := k; Zod.message := m |} ] else [].

(** The events of the callback step, when it returns. *)
Definition callback_events (onSubmit : option (FormData -> Outcome)) (data : FormData)
    : list Event :=
  match onSubmit with
  | Some _ => [OnSubmit data]
  | None => []
  end.

(** The callback, when there is one, returns normally on [data]. *)
Definition returns_on (onSubmit : option (FormData -> Outcome)) (data : FormData) : Prop :=
  ∀ cb, onSubmit = Some cb → cb data = Returns.

(** A submit attempt from [s] went through the whole pipeline: validation,
    log record, success notification, one call of the callback when there is
    one, then the reset of the form and of the two cells, which leaves the
    draft, the error map, the preview and the file name empty. *)
Definition pipeline_ran (onSubmit : option (FormData -> Outcome)) (s : State) : Prop :=
  let d := values s in
  let s' := state_after (form_onSubmit onSubmit) s in
  events_of (form_onSubmit onSubmit) s
  = [Validate d; ConsoleLog "ข้อมูลที่ส่ง:" d; Toast success_toast]
    ++ callback_events onSubmit d
    ++ [Reset; SetImagePreview None; SetFileName None]
  ∧ result_of (form_onSubmit onSubmit) s = Ok ()
  ∧ values s' = emptyFormData
  ∧ errors s' = ∅
  ∧ imagePreview s' = None
  ∧ fileName s' = None.

(** A change event that carries no file: [e.target.files] is [null] or
    empty. *)
Definition no_file (files : option FileList) : Prop :=
  files = None ∨ files = Some [].

(** ** Scenarios *)

(** The two scenarios of the specification's test list. *)
Definition scenario_draft : FormData :=
  {| title := js "Solar Silk Reeling Machine";
     abstract := js "A device that uses solar energy to power a silk-reeling mechanism for rural weavers.";
     researcher := js "Somchai Srisuwan";
     image := None; researchFile := None |}.

Definition blank_draft : FormData :=
  {| title := []; abstract := js "short"; researcher := [];
     image := None; researchFile := None |}.

Definition editing (d : FormData) : State := with_values (fun _ => d) initialState.

Definition photo : File := {| name := js "reel.png"; content := [137; 80; 78; 71]%N |}.
Definition paper : File := {| name := js "paper.pdf"; content := [37; 80; 68; 70]%N |}.

(** A form with both files attached, a preview and a file name shown. *)
Definition with_attachments : State :=
  {| values := {| title := js "Solar"; abstract := []; researcher := [];
                  image := Some [photo]; researchFile := Some [paper] |};
     errors := ∅; isSubmitting := false;
     imagePreview := Some (js "data:image/png;base64,iVBORw==");
     fileName := Some (name paper); readers := [] |}.

(** ** What the component renders (lines 88-256) *)

(** JavaScript truthiness of a [string | null] cell: [null] and the empty
    string are falsy. *)
Definition truthy (v : option jsstring) : bool :=
  match v with
  | Some (_ :: _) => true
  | _ => false
  end.

(** Lines 142-160: the label of the image input shows the preview, or the
    upload prompt. *)
Inductive ImageArea :=
| Preview (src : jsstring) (hint : string)
| UploadPrompt (hint : string).

(** Lines 219-223: the label of the document input shows the file name, or
    a prompt. *)
Inductive FileLabel :=
| ShownName (n : jsstring)
| FilePrompt (text : string).

(** The parts of the rendered form that depend on the state. *)
Record View := {
  title_error : option string;
  image_area : ImageArea;
  abstract_error : option string;
  researcher_error : option string;
  file_label : FileLabel;
  submit_is_disabled : bool;
  submit_label : string;
}.

(** Lines 88-256.  [errors.f && <p>{errors.f.message}</p>] shows the message
    of a field that has an error; the two conditionals test [imagePreview]
    and [fileName] for truthiness. *)
Definition render (s : State) : View :=
  {| title_error := errors s !! "title";
     image_area :=
       if truthy (imagePreview s)
       then Preview (default [] (imagePreview s)) "คลิกเพื่อเปลี่ยนรูปภาพ"
       else UploadPrompt "คลิกเพื่อเลือกรูปภาพ หรือลากไฟล์มาวาง";
     abstract_error := errors s !! "abstract";
     researcher_error := errors s !! "researcher";
     file_label :=
       if truthy (fileName s)
       then ShownName (default [] (fileName s))
       else FilePrompt "เลือกไฟล์งานวิจัย (PDF, DOC, DOCX)";
     submit_is_disabled := isSubmitting s;
     submit_label := if isSubmitting s then "กำลังบันทึก..." else "บันทึกข้อมูล" |}.

(** ** Sessions *)

Definition set_text (field : string) (text : jsstring) (d : FormData) : FormData :=
  if String.eqb field "title" then
    {| title := text; abstract := abstract d; researcher := researcher d;
       image := image d; researchFile := researchFile d |}
  else if String.eqb field "abstract" then
    {| title := title d; abstract := text; researcher := researcher d;
       image := image d; researchFile := researchFile d |}
  else if String.eqb field "researcher" then
    {| title := title d; abstract := abstract d; researcher := text;
       image := image d; researchFile := researchFile d |}
  else d.

(** What the user, or the browser, can do to a mounted form. *)
Inductive Interaction :=
| Edit (field : string) (text : jsstring) (errs : gmap string string)
| PickImage (files : option FileList)
| PickDocument (files : option FileList)
| ReadDone (i : nat) (result : jsstring)
| PressSubmit
| PressClear.

(** Modelled from the spec: the inputs bound by [register] (lines 115, 172,
    189) are handled by react-hook-form: "a per-field binding operation that
    connects an input to the draft".  Editing stores the text in the named
    field; the library may validate the field again, and [errs] is the error
    map it leaves.  The other interactions run the handlers of the
    component. *)
Definition interact (onSubmit : option (FormData -> Outcome)) (a : Interaction)
    (s : State) : State :=
  match a with
  | Edit field text errs => with_errors errs (with_values (set_text field text) s)
  | PickImage files => state_after (handleImageChange files) s
  | PickDocument files => state_after (handleFileChange files) s
  | ReadDone i result => state_after (reader_onload i result) s
  | PressSubmit => state_after (click_submit onSubmit) s
  | PressClear => state_after click_reset s
  end.

(** The state of a form after a sequence of interactions since it was
    mounted. *)
Definition session (onSubmit : option (FormData -> Outcome)) (l : list Interaction) : State :=
  fold_left (fun s a => interact onSubmit a s) l initialState.

(** The document shown is the first one stored, and neither file field holds
    an empty list. *)
Definition attachments_consistent (s : State) : Prop :=
  image (values s) ≠ Some []
  ∧ researchFile (values s) ≠ Some []
  ∧ fileName s = name <$> (researchFile (values s) ≫= head).

(** The drafts the callback was called with, in order. *)
Definition callback_args (es : list Event) : list FormData :=
  omap (fun e => match e with OnSubmit d => Some d | _ => None end) es.

(** A session that fills in the scenario draft and attaches both files. *)
Definition scenario_session : list Interaction :=
  [ Edit "title" (title scenario_draft) ∅;
    Edit "abstract" (abstract scenario_draft) ∅;
    Edit "researcher" (researcher scenario_draft) ∅;
    PickImage (Some [photo]);
    PickDocument (Some [paper]) ].

(** A callback that accepts every draft. *)
Definition accepting : option (FormData -> Outcome) := Some (fun _ => Returns).

(** The operations of a run, each with the value of [isSubmitting] right
    after it. *)
Definition flagged (t : list Step) : list (Event * bool) :=
  map (fun st => (event st, isSubmitting (after st))) t.

(** * Properties *)

(** ** The schema and the resolver *)

Example formSchema_blank :
  formSchema {| title := []; abstract := js "short"; researcher := [];
                image := None; researchFile := None |}
  = [ {| Zod.path := "title"; Zod.message := "กรุณาใส่ชื่อโครงการ" |};
      {| Zod.path := "abstract"; Zod.message := "บทคัดย่อต้องมีอย่างน้อย 10 ตัวอักษร" |};
      {| Zod.path := "researcher"; Zod.message := "กรุณาใส่ชื่อนักวิจัย" |} ].
Proof. reflexivity. Qed.


(** The issues of a draft: one per violated text field, none for the file
    fields. *)
Lemma formSchema_issues d :
  formSchema d =
    issue_if (length (title d) <? 1) "title" msg_title
    ++ issue_if (length (abstract d) <? 10) "abstract" msg_abstract
    ++ issue_if (length (researcher d) <? 1) "researcher" msg_researcher.
Proof.
  destruct d as [t a r i f]; unfold formSchema, Zod.object, issue_if; cbn -[Nat.ltb].
  unfold Zod.min.
  destruct (length t <? 1), (length a <? 10), (length r <? 1), i, f; reflexivity.
Qed.

Lemma ltb_1_nil (l : jsstring) : (length l <? 1) = true ↔ l = [].
Proof.
  destruct l; cbn; split; intros H; try done.
Qed.

Lemma ltb_1_cons (l : jsstring) : (length l <? 1) = false ↔ l ≠ [].
Proof.
  destruct l; cbn; split; intros H; try done.
Qed.

Lemma formSchema_valid d : valid d → formSchema d = [].
Proof.
  intros (Ht & Ha & Hr). rewrite formSchema_issues.
  apply ltb_1_cons in Ht, Hr. rewrite Ht, Hr.
  apply Nat.ltb_ge in Ha. rewrite Ha. reflexivity.
Qed.

(** The resolver keeps, for every path, the message of its first issue. *)
Lemma toErrors_lookup_acc issues (acc : gmap string string) k :
  fold_left
    (fun errs i =>
       match errs !! Zod.path i with
       | Some _ => errs
       | None => <[Zod.path i := Zod.message i]> errs
       end)
    issues acc !! k
  = match acc !! k with
    | Some m => Some m
    | None => Zod.message <$> head (filter (fun i => Zod.path i = k) issues)
    end.
Proof.
  revert acc. induction issues as [|i rest IH]; intros acc; cbn [fold_left].
  - destruct (acc !! k); reflexivity.
  - rewrite IH, filter_cons. destruct (decide (Zod.path i = k)) as [Heq|Hne].
    + subst k. destruct (acc !! Zod.path i) eqn:E.
      * rewrite E. reflexivity.
      * rewrite lookup_insert_eq. reflexivity.
    + destruct (acc !! Zod.path i) eqn:E.
      * reflexivity.
      * rewrite lookup_insert_ne by done. reflexivity.
Qed.

Lemma toErrors_lookup issues k :
  toErrors issues !! k = Zod.message <$> head (filter (fun i => Zod.path i = k) issues).
Proof. unfold toErrors. rewrite toErrors_lookup_acc, lookup_empty. reflexivity. Qed.

Lemma toErrors_nil_inv issues : toErrors issues = ∅ → issues = [].
Proof.
  destruct issues as [|i rest]; [done|]. intros H.
  assert (toErrors (i :: rest) !! Zod.path i = None) as Hk by (rewrite H; apply lookup_empty).
  rewrite toErrors_lookup, filter_cons in Hk.
  destruct (decide (Zod.path i = Zod.path i)); [discriminate | done].
Qed.

Lemma resolver_valid d : valid d → resolver d = ∅.
Proof. intros H. unfold resolver, zodResolver. rewrite formSchema_valid by done. reflexivity. Qed.

Lemma resolver_invalid d :
  title d = [] ∨ researcher d = [] ∨ length (abstract d) < 10 → resolver d ≠ ∅.
Proof.
  intros H E. apply toErrors_nil_inv in E. rewrite formSchema_issues in E.
  destruct H as [H | [H | H]].
  - apply ltb_1_nil in H. rewrite H in E. discriminate.
  - apply ltb_1_nil in H. rewrite H in E.
    destruct (length (title d) <? 1), (length (abstract d) <? 10); discriminate.
  - apply Nat.ltb_lt in H. rewrite H in E.
    destruct (length (title d) <? 1); discriminate.
Qed.

(** The error of a field after the resolver ran. *)
Lemma resolver_lookup d k :
  resolver d !! k =
    if decide (k = "title") then
      if length (title d) <? 1 then Some msg_title else None
    else if decide (k = "abstract") then
      if length (abstract d) <? 10 then Some msg_abstract else None
    else if decide (k = "researcher") then
      if length (researcher d) <? 1 then Some msg_researcher else None
    else None.
Proof.
  unfold resolver, zodResolver. rewrite toErrors_lookup, formSchema_issues.
  unfold issue_if.
  repeat case_decide; subst;
    destruct (length (title d) <? 1), (length (abstract d) <? 10),
             (length (researcher d) <? 1);
    cbn [app]; rewrite ?filter_cons, ?filter_nil; cbn [Zod.path];
    repeat case_decide; try done.
Qed.

(** ** Running [handleSubmit] *)

Lemma handleSubmit_valid res (onValid : FormData -> M unit) s :
  res (values s) = ∅ →
  handleSubmit res onValid s =
    let s1 := with_errors ∅ (with_isSubmitting true s) in
    let run := onValid (values s) s1 in
    (run.1.1, with_isSubmitting false run.1.2,
     {| event := Validate (values s); after := s1 |} :: run.2).
Proof.
  intros H. unfold handleSubmit. cbn [values with_isSubmitting].
  rewrite H, decide_True by done.
  unfold mbind, M_bind, perform.
  destruct (onValid _ _) as [[r s2] t]. reflexivity.
Qed.

Lemma handleSubmit_invalid res (onValid : FormData -> M unit) s :
  res (values s) ≠ ∅ →
  handleSubmit res onValid s =
    let s1 := with_errors (res (values s)) (with_isSubmitting true s) in
    (Ok (), with_isSubmitting false s1,
     [ {| event := Validate (values s); after := s1 |} ]).
Proof.
  intros H. unfold handleSubmit. cbn [values with_isSubmitting].
  rewrite decide_False by done. reflexivity.
Qed.

(** ** Running [handleFormSubmit] *)

Ltac run_handler :=
  unfold handleFormSubmit, try_catch, mbind, M_bind, call, console_log, toast,
    reset, setImagePreview, setFileName, perform, skip, mret, M_ret.

Lemma handleFormSubmit_returns onSubmit data s :
  returns_on onSubmit data →
  result_of (handleFormSubmit onSubmit data) s = Ok ()
  ∧ state_after (handleFormSubmit onSubmit data) s
    = with_fileName None (with_imagePreview None
        (with_isSubmitting false
           (with_errors ∅ (with_values (fun _ => emptyFormData) s))))
  ∧ trace_of (handleFormSubmit onSubmit data) s
    = [ {| event := ConsoleLog "ข้อมูลที่ส่ง:" data; after := s |};
        {| event := Toast success_toast; after := s |} ]
      ++ map (fun e => {| event := e; after := s |}) (callback_events onSubmit data)
      ++ (let s1 := with_isSubmitting false
                      (with_errors ∅ (with_values (fun _ => emptyFormData) s)) in
          let s2 := with_imagePreview None s1 in
          [ {| event := Reset; after := s1 |};
            {| event := SetImagePreview None; after := s2 |};
            {| event := SetFileName None; after := with_fileName None s2 |} ]).
Proof.
  intros Hret. unfold result_of, state_after, trace_of, callback_events.
  destruct onSubmit as [cb|].
  - specialize (Hret cb eq_refl). run_handler. rewrite Hret. cbn. done.
  - run_handler. cbn. done.
Qed.

Lemma handleFormSubmit_throws cb data s :
  cb data = Throws →
  handleFormSubmit (Some cb) data s
  = (Ok (), s,
     [ {| event := ConsoleLog "ข้อมูลที่ส่ง:" data; after := s |};
       {| event := Toast success_toast; after := s |};
       {| event := OnSubmit data; after := s |};
       {| event := Toast failure_toast; after := s |} ]).
Proof.
  intros Hthrow. run_handler. rewrite Hthrow. cbn. reflexivity.
Qed.

(** Whatever the callback does, the handler itself completes. *)
Lemma handleFormSubmit_completes onSubmit data s :
  result_of (handleFormSubmit onSubmit data) s = Ok ().
Proof.
  unfold result_of.
  destruct onSubmit as [cb|]; [destruct (cb data) eqn:E|];
    run_handler; rewrite ?E; reflexivity.
Qed.

(** A submit attempt on a valid draft whose callback returns. *)
Lemma form_onSubmit_returns onSubmit s :
  valid (values s) → returns_on onSubmit (values s) →
  result_of (form_onSubmit onSubmit) s = Ok ()
  ∧ state_after (form_onSubmit onSubmit) s
    = with_isSubmitting false
        (with_fileName None (with_imagePreview None
           (with_isSubmitting false
              (with_errors ∅ (with_values (fun _ => emptyFormData)
                 (with_errors ∅ (with_isSubmitting true s)))))))
  ∧ events_of (form_onSubmit onSubmit) s
    = [Validate (values s); ConsoleLog "ข้อมูลที่ส่ง:" (values s); Toast success_toast]
      ++ callback_events onSubmit (values s)
      ++ [Reset; SetImagePreview None; SetFileName None].
Proof.
  intros Hv Hret.
  pose proof (handleFormSubmit_returns onSubmit (values s)
                (with_errors ∅ (with_isSubmitting true s)) Hret) as (Hr & Hs & Ht).
  unfold events_of, trace_of, result_of, state_after in *.
  unfold form_onSubmit. rewrite handleSubmit_valid by (apply resolver_valid, Hv).
  cbv zeta. cbn [fst snd]. rewrite Hr, Hs, Ht.
  unfold callback_events. destruct onSubmit; cbn; done.
Qed.

Lemma scenario_draft_valid : valid scenario_draft.
Proof. repeat split; [done | cbn; lia | done]. Defined.

(** ** Validation *)

(** C5. A draft whose title and researcher are non-empty and whose abstract
    has at least 10 code units passes validation whatever the image and
    researchFile fields hold, absent or present: the schema raises no issue
    and the resolver reports no error. *)
Theorem validation_ignores_files (t a r : jsstring) (img rf : option FileList) :
  t ≠ [] → 10 ≤ length a → r ≠ [] →
  let d := {| title := t; abstract := a; researcher := r;
              image := img; researchFile := rf |} in
  formSchema d = [] ∧ resolver d = ∅.
Proof.
  intros Ht Ha Hr d.
  assert (valid d) as Hv by (repeat split; assumption).
  split; [apply formSchema_valid | apply resolver_valid]; exact Hv.
Qed.

Lemma validation_ignores_files_witness :
  js "Solar Silk Reeling Machine" ≠ []
  ∧ 10 ≤ length (js "0123456789")
  ∧ js "Somchai Srisuwan" ≠ []
  ∧ (formSchema {| title := js "Solar Silk Reeling Machine"; abstract := js "0123456789";
                   researcher := js "Somchai Srisuwan";
                   image := Some [photo]; researchFile := Some [] |} = []
     ∧ resolver {| title := js "Solar Silk Reeling Machine"; abstract := js "0123456789";
                   researcher := js "Somchai Srisuwan";
                   image := Some [photo]; researchFile := Some [] |} = ∅).
Proof.
  split; [done|]. split; [cbn; lia|]. split; [done|].
  apply (validation_ignores_files (js "Solar Silk Reeling Machine") (js "0123456789")
           (js "Somchai Srisuwan") (Some [photo]) (Some [])); [done | cbn; lia | done].
Defined.

(** C2. When the title is empty, or the researcher is empty, or the abstract
    is shorter than 10, a submit attempt only validates: the handler does not
    run (no log, no notification, no callback, no reset), the draft, the
    preview and the file name are kept, and the error map holds the message
    of every violated field and nothing else; the schema raises at most one
    issue per field. *)
Theorem invalid_submit_is_blocked onSubmit s :
  title (values s) = [] ∨ researcher (values s) = [] ∨ length (abstract (values s)) < 10 →
  let d := values s in
  let s' := state_after (form_onSubmit onSubmit) s in
  events_of (form_onSubmit onSubmit) s = [Validate d]
  ∧ result_of (form_onSubmit onSubmit) s = Ok ()
  ∧ values s' = d
  ∧ imagePreview s' = imagePreview s
  ∧ fileName s' = fileName s
  ∧ (title d = [] → errors s' !! "title" = Some msg_title)
  ∧ (length (abstract d) < 10 → errors s' !! "abstract" = Some msg_abstract)
  ∧ (researcher d = [] → errors s' !! "researcher" = Some msg_researcher)
  ∧ (∀ k m, errors s' !! k = Some m →
       (k = "title" ∧ title d = [] ∧ m = msg_title)
       ∨ (k = "abstract" ∧ length (abstract d) < 10 ∧ m = msg_abstract)
       ∨ (k = "researcher" ∧ researcher d = [] ∧ m = msg_researcher))
  ∧ (∀ k, length (filter (fun i => Zod.path i = k) (formSchema d)) ≤ 1).
Proof.
  intros Hbad d s'.
  assert (form_onSubmit onSubmit s
          = (Ok (), with_isSubmitting false
                      (with_errors (resolver d) (with_isSubmitting true s)),
             [ {| event := Validate d;
                  after := with_errors (resolver d) (with_isSubmitting true s) |} ])) as Hrun.
  { unfold form_onSubmit. rewrite handleSubmit_invalid; [reflexivity|].
    apply resolver_invalid, Hbad. }
  subst s'. unfold events_of, trace_of, result_of, state_after. rewrite Hrun.
  cbn -[resolver formSchema].
  repeat split.
  - intros H. rewrite resolver_lookup. apply ltb_1_nil in H. fold d. by rewrite H.
  - intros H. rewrite resolver_lookup. apply Nat.ltb_lt in H. fold d. by rewrite H.
  - intros H. rewrite resolver_lookup. apply ltb_1_nil in H. fold d. by rewrite H.
  - intros k m. rewrite resolver_lookup. fold d.
    repeat case_decide; subst; try discriminate.
    + destruct (length (title d) <? 1) eqn:E; [|discriminate].
      intros [= <-]. left. by apply ltb_1_nil in E.
    + destruct (length (abstract d) <? 10) eqn:E; [|discriminate].
      intros [= <-]. right; left. by apply Nat.ltb_lt in E.
    + destruct (length (researcher d) <? 1) eqn:E; [|discriminate].
      intros [= <-]. right; right. by apply ltb_1_nil in E.
  - intros k. rewrite formSchema_issues. unfold issue_if.
    destruct (length (title d) <? 1), (length (abstract d) <? 10),
             (length (researcher d) <? 1);
      cbn [app]; rewrite ?filter_cons, ?filter_nil; cbn [Zod.path];
      repeat case_decide; subst; cbn; try lia; try done.
Qed.

Lemma invalid_submit_is_blocked_witness :
  (title (values (editing blank_draft)) = []
   ∨ researcher (values (editing blank_draft)) = []
   ∨ length (abstract (values (editing blank_draft))) < 10)
  ∧ events_of (form_onSubmit (Some (fun _ => Returns))) (editing blank_draft)
    = [Validate blank_draft].
Proof.
  split; [left; reflexivity|].
  apply (invalid_submit_is_blocked (Some (fun _ => Returns)) (editing blank_draft)).
  left; reflexivity.
Defined.

(** ** Submission *)

(** Membership in an explicit list of events. *)
Ltac event_absent :=
  let H := fresh "H" in
  intros H;
  repeat (apply elem_of_cons in H as [H|H]; [discriminate H|]);
  by apply elem_of_nil in H.

Ltac event_present :=
  solve [ repeat first [ apply list_elem_of_here | apply list_elem_of_further ] ].

(** C1. For a valid draft, when no callback was supplied or the supplied
    callback returns normally, a submit attempt performs in this order: the
    validation, the log record of the draft, the success notification,
    exactly one call of the callback with the submitted values (none when no
    callback was supplied), then the reset of the form, of the preview and of
    the file name; afterwards the draft, the error map, the preview and the
    file name are empty. *)
Theorem valid_submit_runs_pipeline onSubmit s :
  valid (values s) → returns_on onSubmit (values s) →
  pipeline_ran onSubmit s.
Proof.
  intros Hv Hret.
  destruct (form_onSubmit_returns onSubmit s Hv Hret) as (Hr & Hs & He).
  unfold pipeline_ran. cbv zeta. rewrite Hr, Hs, He. cbn. done.
Qed.

Lemma valid_submit_runs_pipeline_witness :
  valid (values (editing scenario_draft))
  ∧ returns_on (Some (fun _ => Returns)) (values (editing scenario_draft))
  ∧ pipeline_ran (Some (fun _ => Returns)) (editing scenario_draft).
Proof.
  split; [exact scenario_draft_valid|].
  split; [intros cb [= <-]; reflexivity|].
  apply (valid_submit_runs_pipeline (Some (fun _ => Returns)) (editing scenario_draft)).
  - exact scenario_draft_valid.
  - intros cb [= <-]; reflexivity.
Defined.

(** C1, as first stated for every valid draft and every callback: it fails
    for the scenario draft and a callback that throws, where the form is not
    reset. *)
Lemma throwing_callback_skips_reset :
  valid (values (editing scenario_draft))
  ∧ ¬ pipeline_ran (Some (fun _ => Throws)) (editing scenario_draft).
Proof.
  split; [exact scenario_draft_valid|].
  intros (_ & _ & Hvalues & _).
  vm_compute in Hvalues. discriminate Hvalues.
Qed.

(** C3. For a valid draft, when the callback throws, the failure
    notification is shown and nothing is reset: the draft, the preview and
    the file name are what they were, so that submitting again does the
    same. *)
Theorem callback_throw_keeps_input cb s :
  valid (values s) → cb (values s) = Throws →
  let s' := state_after (form_onSubmit (Some cb)) s in
  Toast failure_toast ∈ events_of (form_onSubmit (Some cb)) s
  ∧ (Reset ∉ events_of (form_onSubmit (Some cb)) s)
  ∧ (SetImagePreview None ∉ events_of (form_onSubmit (Some cb)) s)
  ∧ (SetFileName None ∉ events_of (form_onSubmit (Some cb)) s)
  ∧ values s' = values s
  ∧ imagePreview s' = imagePreview s
  ∧ fileName s' = fileName s
  ∧ events_of (form_onSubmit (Some cb)) s' = events_of (form_onSubmit (Some cb)) s.
Proof.
  intros Hv Hthrow s'.
  assert (∀ s0, values s0 = values s →
            form_onSubmit (Some cb) s0
            = (Ok (), with_isSubmitting false (with_errors ∅ (with_isSubmitting true s0)),
               map (fun e => {| event := e;
                                after := with_errors ∅ (with_isSubmitting true s0) |})
                 [Validate (values s); ConsoleLog "ข้อมูลที่ส่ง:" (values s);
                  Toast success_toast; OnSubmit (values s); Toast failure_toast])) as Hrun.
  { intros s0 E. unfold form_onSubmit.
    rewrite handleSubmit_valid by (rewrite E; apply resolver_valid, Hv).
    cbv zeta. rewrite E, handleFormSubmit_throws by exact Hthrow. reflexivity. }
  assert (values s' = values s) as Hs'.
  { subst s'. unfold state_after. rewrite Hrun by reflexivity. reflexivity. }
  unfold events_of, trace_of. rewrite (Hrun s' Hs'), (Hrun s eq_refl).
  subst s'. unfold state_after. rewrite (Hrun s eq_refl). cbn.
  repeat split; first [ reflexivity | event_present | event_absent ].
Qed.

Lemma callback_throw_keeps_input_witness :
  valid (values (editing scenario_draft))
  ∧ (fun _ : FormData => Throws) (values (editing scenario_draft)) = Throws
  ∧ values (state_after (form_onSubmit (Some (fun _ => Throws))) (editing scenario_draft))
    = values (editing scenario_draft).
Proof.
  split; [exact scenario_draft_valid|]. split; [reflexivity|].
  apply (callback_throw_keeps_input (fun _ => Throws) (editing scenario_draft)).
  - exact scenario_draft_valid.
  - reflexivity.
Defined.

(** C4. A submit attempt of the scenario draft with a callback that throws
    fires two notifications: the success message, then the failure
    message. *)
Theorem throwing_callback_fires_two_toasts :
  toasts (events_of (form_onSubmit (Some (fun _ => Throws))) (editing scenario_draft))
  = [success_toast; failure_toast].
Proof. vm_compute. reflexivity. Qed.

(** ** The clear button *)

(** C6. From any state, the clear button empties the three text fields, the
    two file fields, the error map, the preview and the file name; it only
    resets and sets the two cells: it neither validates nor notifies. *)
Theorem click_reset_clears s :
  let s' := state_after click_reset s in
  title (values s') = []
  ∧ abstract (values s') = []
  ∧ researcher (values s') = []
  ∧ image (values s') = None
  ∧ researchFile (values s') = None
  ∧ imagePreview s' = None
  ∧ fileName s' = None
  ∧ errors s' = ∅
  ∧ result_of click_reset s = Ok ()
  ∧ events_of click_reset s = [Reset; SetImagePreview None; SetFileName None]
  ∧ toasts (events_of click_reset s) = []
  ∧ (∀ d, Validate d ∉ events_of click_reset s).
Proof.
  cbn. repeat split; try reflexivity.
  intros d. event_absent.
Qed.

(** ** The file inputs *)

(** C7. When the change event carries no file, neither handler does
    anything: no operation is performed and the whole state, with the
    preview, the file name and the two file fields of the draft, is
    unchanged. *)
Theorem cancelled_picker_changes_nothing files s :
  no_file files →
  handleImageChange files s = (Ok (), s, [])
  ∧ handleFileChange files s = (Ok (), s, []).
Proof.
  intros [-> | ->]; split; reflexivity.
Qed.

Lemma cancelled_picker_changes_nothing_witness :
  no_file (Some [])
  ∧ handleImageChange (Some []) with_attachments = (Ok (), with_attachments, [])
  ∧ handleFileChange (Some []) with_attachments = (Ok (), with_attachments, []).
Proof.
  split; [right; reflexivity|].
  apply (cancelled_picker_changes_nothing (Some []) with_attachments).
  right; reflexivity.
Defined.

(** C9. The image handler, and later the completion of its read, leave the
    file name, the researchFile field and the three text fields as they
    were; the document handler leaves the preview, the image field, the
    three text fields and the pending reads as they were.  Neither touches
    the error map or [isSubmitting]. *)
Theorem file_handlers_frame files i result s :
  let s1 := state_after (handleImageChange files) s in
  let s2 := state_after (reader_onload i result) s in
  let s3 := state_after (handleFileChange files) s in
  (fileName s1 = fileName s
   ∧ researchFile (values s1) = researchFile (values s)
   ∧ title (values s1) = title (values s)
   ∧ abstract (values s1) = abstract (values s)
   ∧ researcher (values s1) = researcher (values s)
   ∧ errors s1 = errors s
   ∧ isSubmitting s1 = isSubmitting s)
  ∧ (fileName s2 = fileName s
     ∧ values s2 = values s
     ∧ errors s2 = errors s
     ∧ isSubmitting s2 = isSubmitting s)
  ∧ (imagePreview s3 = imagePreview s
     ∧ image (values s3) = image (values s)
     ∧ title (values s3) = title (values s)
     ∧ abstract (values s3) = abstract (values s)
     ∧ researcher (values s3) = researcher (values s)
     ∧ readers s3 = readers s
     ∧ errors s3 = errors s
     ∧ isSubmitting s3 = isSubmitting s).
Proof.
  cbv zeta. unfold state_after, reader_onload.
  split; [|split].
  - destruct files as [[|f fs]|]; cbn; repeat split.
  - destruct (readers s !! i); cbn; repeat split.
  - destruct files as [[|f fs]|]; cbn; repeat split.
Qed.

(** C10. When an image is selected, the handler starts the read and stores
    the file list in the image field at once, leaving the preview as it was;
    the preview is set by the completion of the read.  Hence a valid draft
    submitted before the read completes reaches the callback with the image
    present while no preview was ever shown. *)
Theorem image_stored_before_preview f fs s :
  let files := Some (f :: fs) in
  let s' := state_after (handleImageChange files) s in
  events_of (handleImageChange files) s = [ReadAsDataURL f; SetValue "image" files]
  ∧ image (values s') = files
  ∧ imagePreview s' = imagePreview s
  ∧ readers s' = readers s ++ [f]
  ∧ (∀ result,
       events_of (reader_onload (length (readers s)) result) s'
       = [SetImagePreview (Some result)]
       ∧ imagePreview (state_after (reader_onload (length (readers s)) result) s')
         = Some result)
  ∧ (∀ cb, valid (values s) → imagePreview s = None → cb (values s') = Returns →
       imagePreview s' = None
       ∧ OnSubmit (values s') ∈ events_of (form_onSubmit (Some cb)) s').
Proof.
  cbv zeta. unfold events_of, trace_of, state_after.
  change ((handleImageChange (Some (f :: fs)) s).1.2)
    with (with_values (set_field "image" (Some (f :: fs)))
            (with_readers (fun rs => rs ++ [f]) s)).
  repeat split.
  - unfold reader_onload. cbn [readers with_values with_readers].
    rewrite list_lookup_middle by done. reflexivity.
  - unfold reader_onload. cbn [readers with_values with_readers].
    rewrite list_lookup_middle by done. reflexivity.
  - cbn. assumption.
  - destruct (form_onSubmit_returns (Some cb)
                (with_values (set_field "image" (Some (f :: fs)))
                   (with_readers (fun rs => rs ++ [f]) s))) as (_ & _ & Hev).
    + destruct H as (Ht & Ha & Hr). repeat split; assumption.
    + intros cb' [= <-]. assumption.
    + unfold events_of, trace_of in Hev. rewrite Hev. cbn. event_present.
Qed.

Lemma image_stored_before_preview_witness :
  valid (values (editing scenario_draft))
  ∧ imagePreview (editing scenario_draft) = None
  ∧ imagePreview (state_after (handleImageChange (Some [photo])) (editing scenario_draft))
    = None
  ∧ OnSubmit {| title := title scenario_draft; abstract := abstract scenario_draft;
                researcher := researcher scenario_draft;
                image := Some [photo]; researchFile := None |}
    ∈ events_of (form_onSubmit (Some (fun _ => Returns)))
        (state_after (handleImageChange (Some [photo])) (editing scenario_draft)).
Proof.
  split; [exact scenario_draft_valid|]. split; [reflexivity|].
  apply (image_stored_before_preview photo [] (editing scenario_draft)).
  - exact scenario_draft_valid.
  - reflexivity.
  - reflexivity.
Defined.


(** * Further properties of the component *)

(** ** Every way a submit attempt can go *)

Lemma formSchema_nil_valid d : formSchema d = [] → valid d.
Proof.
  rewrite formSchema_issues. unfold issue_if, valid.
  destruct (length (title d) <? 1) eqn:Et; [discriminate|].
  destruct (length (abstract d) <? 10) eqn:Ea; [discriminate|].
  destruct (length (researcher d) <? 1) eqn:Er; [discriminate|].
  intros _. apply ltb_1_cons in Et, Er. apply Nat.ltb_ge in Ea. done.
Qed.

Lemma resolver_nil_valid d : resolver d = ∅ → valid d.
Proof. intros H. apply formSchema_nil_valid, toErrors_nil_inv, H. Qed.

Lemma valid_or_not d : valid d ∨ ¬ valid d.
Proof.
  destruct (decide (resolver d = ∅)) as [H | H].
  - left. apply resolver_nil_valid, H.
  - right. intros Hv. apply H, resolver_valid, Hv.
Qed.

Lemma callback_returns_or_throws onSubmit d :
  returns_on onSubmit d ∨ ∃ cb, onSubmit = Some cb ∧ cb d = Throws.
Proof.
  destruct onSubmit as [cb|].
  - destruct (cb d) eqn:E.
    + left. intros cb' [= <-]. exact E.
    + right. exists cb. done.
  - left. intros cb' [=].
Qed.

Lemma form_onSubmit_blocked onSubmit s :
  ¬ valid (values s) →
  form_onSubmit onSubmit s
  = (Ok (),
     with_isSubmitting false
       (with_errors (resolver (values s)) (with_isSubmitting true s)),
     [ {| event := Validate (values s);
          after := with_errors (resolver (values s)) (with_isSubmitting true s) |} ]).
Proof.
  intros Hbad. unfold form_onSubmit. rewrite handleSubmit_invalid; [reflexivity|].
  intros E. apply Hbad, resolver_nil_valid, E.
Qed.

Lemma form_onSubmit_throws cb s :
  valid (values s) → cb (values s) = Throws →
  form_onSubmit (Some cb) s
  = (Ok (), with_isSubmitting false (with_errors ∅ (with_isSubmitting true s)),
     map (fun e => {| event := e; after := with_errors ∅ (with_isSubmitting true s) |})
       [Validate (values s); ConsoleLog "ข้อมูลที่ส่ง:" (values s);
        Toast success_toast; OnSubmit (values s); Toast failure_toast]).
Proof.
  intros Hv Hthrow. unfold form_onSubmit.
  rewrite handleSubmit_valid by (apply resolver_valid, Hv).
  cbv zeta. rewrite handleFormSubmit_throws by exact Hthrow. reflexivity.
Qed.

(** The events of a submit attempt, in each of its three courses. *)
Lemma form_onSubmit_events onSubmit s :
  (¬ valid (values s)
   ∧ events_of (form_onSubmit onSubmit) s = [Validate (values s)])
  ∨ (valid (values s) ∧ returns_on onSubmit (values s)
     ∧ events_of (form_onSubmit onSubmit) s
       = [Validate (values s); ConsoleLog "ข้อมูลที่ส่ง:" (values s); Toast success_toast]
         ++ callback_events onSubmit (values s)
         ++ [Reset; SetImagePreview None; SetFileName None])
  ∨ (valid (values s) ∧ (∃ cb, onSubmit = Some cb ∧ cb (values s) = Throws)
     ∧ events_of (form_onSubmit onSubmit) s
       = [Validate (values s); ConsoleLog "ข้อมูลที่ส่ง:" (values s);
          Toast success_toast; OnSubmit (values s); Toast failure_toast]).
Proof.
  destruct (valid_or_not (values s)) as [Hv | Hbad].
  - destruct (callback_returns_or_throws onSubmit (values s)) as [Hret | (cb & -> & Hthrow)].
    + right; left. split; [done|]. split; [done|].
      apply (form_onSubmit_returns onSubmit s Hv Hret).
    + right; right. split; [done|]. split; [eauto|].
      unfold events_of, trace_of. rewrite form_onSubmit_throws by done. reflexivity.
  - left. split; [done|].
    unfold events_of, trace_of. rewrite form_onSubmit_blocked by done. reflexivity.
Qed.

(** The state a submit attempt leaves: the input is either kept or cleared
    as a whole, pending reads are never touched and the flag is down. *)
Lemma form_onSubmit_state onSubmit s :
  let s' := state_after (form_onSubmit onSubmit) s in
  isSubmitting s' = false
  ∧ readers s' = readers s
  ∧ ((values s' = values s ∧ imagePreview s' = imagePreview s ∧ fileName s' = fileName s)
     ∨ (values s' = emptyFormData ∧ imagePreview s' = None ∧ fileName s' = None
        ∧ errors s' = ∅)).
Proof.
  cbv zeta.
  destruct (valid_or_not (values s)) as [Hv | Hbad].
  - destruct (callback_returns_or_throws onSubmit (values s)) as [Hret | (cb & -> & Hthrow)].
    + destruct (form_onSubmit_returns onSubmit s Hv Hret) as (_ & -> & _).
      repeat split. right. repeat split.
    + unfold state_after. rewrite form_onSubmit_throws by done.
      repeat split. left. repeat split.
  - unfold state_after. rewrite form_onSubmit_blocked by done.
    repeat split. left. repeat split.
Qed.

(** ** The schema *)

(** X1. The schema accepts a draft exactly when its title and researcher
    are non-empty and its abstract has at least 10 code units; the resolver
    then reports no error, and reports one otherwise.  Nothing is trimmed and
    the file fields play no part. *)
Theorem schema_accepts_iff_valid d :
  (formSchema d = [] ↔ valid d) ∧ (resolver d = ∅ ↔ valid d).
Proof.
  split; split.
  - apply formSchema_nil_valid.
  - apply formSchema_valid.
  - apply resolver_nil_valid.
  - apply resolver_valid.
Qed.

(** ** Notifications and the callback *)

(** X2. In a submit attempt the callback is called at most once, only with
    the draft being submitted and only when that draft is valid; it is
    called exactly once when the draft is valid and a callback was
    supplied. *)
Theorem callback_called_once_with_valid_draft onSubmit s :
  let calls := callback_args (events_of (form_onSubmit onSubmit) s) in
  length calls ≤ 1
  ∧ (∀ d, d ∈ calls → d = values s ∧ valid d ∧ is_Some onSubmit)
  ∧ (valid (values s) → is_Some onSubmit → calls = [values s]).
Proof.
  cbv zeta.
  destruct (form_onSubmit_events onSubmit s)
    as [(Hbad & ->) | [(Hv & Hret & ->) | (Hv & (cb & -> & Hthrow) & ->)]].
  - cbn. split; [lia|]. split; [|done].
    intros d Hd. by apply elem_of_nil in Hd.
  - destruct onSubmit as [cb|]; cbn.
    + split; [lia|]. split; [|done].
      intros d Hd. apply list_elem_of_singleton in Hd as ->. eauto.
    + split; [lia|]. split.
      * intros d Hd. by apply elem_of_nil in Hd.
      * intros _ [? [=]].
  - cbn. split; [lia|]. split; [|done].
    intros d Hd. apply list_elem_of_singleton in Hd as ->. eauto.
Qed.

(** X3. A submit attempt fires the success notification exactly when the
    draft is valid, and the failure notification exactly when the draft is
    valid and the supplied callback throws on it; a form without a callback
    never fires the failure notification. *)
Theorem notifications_of_a_submit onSubmit s :
  let es := events_of (form_onSubmit onSubmit) s in
  (Toast success_toast ∈ es ↔ valid (values s))
  ∧ (Toast failure_toast ∈ es
     ↔ valid (values s) ∧ ∃ cb, onSubmit = Some cb ∧ cb (values s) = Throws)
  ∧ (∀ t, t ∈ toasts es → t = success_toast ∨ t = failure_toast).
Proof.
  cbv zeta.
  destruct (form_onSubmit_events onSubmit s)
    as [(Hbad & ->) | [(Hv & Hret & ->) | (Hv & (cb & -> & Hthrow) & ->)]].
  - split; [|split].
    + split; [event_absent | done].
    + split; [event_absent | intros [? _]; done].
    + cbn. intros t Ht. by apply elem_of_nil in Ht.
  - split; [|split].
    + split; [done | intros _; event_present].
    + split.
      * unfold callback_events. destruct onSubmit; cbn; event_absent.
      * intros (_ & cb & -> & Hthrow). specialize (Hret cb eq_refl). congruence.
    + unfold callback_events. destruct onSubmit; cbn; intros t Ht;
        apply list_elem_of_singleton in Ht; auto.
  - split; [|split].
    + split; [done | intros _; event_present].
    + split; [eauto | intros _; event_present].
    + cbn. intros t Ht.
      apply elem_of_cons in Ht as [-> | Ht]; [auto|].
      apply list_elem_of_singleton in Ht; auto.
Qed.

Lemma form_onSubmit_errors onSubmit s :
  errors (state_after (form_onSubmit onSubmit) s) = resolver (values s).
Proof.
  destruct (valid_or_not (values s)) as [Hv | Hbad].
  - rewrite (resolver_valid _ Hv).
    destruct (callback_returns_or_throws onSubmit (values s)) as [Hret | (cb & -> & Hthrow)].
    + destruct (form_onSubmit_returns onSubmit s Hv Hret) as (_ & -> & _). reflexivity.
    + unfold state_after. rewrite form_onSubmit_throws by done. reflexivity.
  - unfold state_after. rewrite form_onSubmit_blocked by done. reflexivity.
Qed.

(** ** What is shown *)

(** X4. After any submit attempt the form shows, under each of the three
    text inputs, the message of the schema when the submitted text violates
    its rule and nothing otherwise, whatever was shown there before. *)
Theorem view_shows_errors_of_violated_fields onSubmit s :
  let v := render (state_after (form_onSubmit onSubmit) s) in
  title_error v
  = match title (values s) with [] => Some msg_title | _ => None end
  ∧ abstract_error v
    = (if length (abstract (values s)) <? 10 then Some msg_abstract else None)
  ∧ researcher_error v
    = match researcher (values s) with [] => Some msg_researcher | _ => None end.
Proof.
  cbv zeta. unfold render. cbn [title_error abstract_error researcher_error].
  rewrite form_onSubmit_errors, !resolver_lookup.
  repeat case_decide; try congruence.
  destruct (title (values s)), (researcher (values s)); cbn; done.
Qed.

(** ** Reads that complete late *)

(** Running the file handlers and the clear button down to the state. *)
Ltac run_step :=
  unfold state_after, click_reset, handleImageChange, handleFileChange,
    mbind, M_bind, readAsDataURL, setValue, setFileName, setImagePreview, reset,
    perform, skip, mret, M_ret;
  cbn.

(** The completion of a pending read. *)
Lemma reader_onload_pending i result f s :
  readers s !! i = Some f →
  reader_onload i result s
  = (Ok (), with_imagePreview (Some result) (with_readers (delete i) s),
     [ {| event := SetImagePreview (Some result);
          after := with_imagePreview (Some result) (with_readers (delete i) s) |} ]).
Proof. intros H. unfold reader_onload. rewrite H. reflexivity. Qed.

(** X5. The clear button does not cancel a read in flight: when an image
    was selected and the form is cleared before the read completes, the
    completion sets the preview again, although the draft holds no image any
    more. *)
Theorem read_completing_after_clear_restores_preview f fs result s :
  let s1 := state_after (handleImageChange (Some (f :: fs))) s in
  let s2 := state_after click_reset s1 in
  let s3 := state_after (reader_onload (length (readers s)) result) s2 in
  image (values s2) = None
  ∧ imagePreview s2 = None
  ∧ image (values s3) = None
  ∧ imagePreview s3 = Some result
  ∧ image_area (render s3)
    = if truthy (Some result)
      then Preview result "คลิกเพื่อเปลี่ยนรูปภาพ"
      else UploadPrompt "คลิกเพื่อเลือกรูปภาพ หรือลากไฟล์มาวาง".
Proof.
  cbv zeta. unfold state_after.
  change ((click_reset (handleImageChange (Some (f :: fs)) s).1.2).1.2)
    with (with_fileName None (with_imagePreview None
            (with_isSubmitting false
               (with_errors ∅ (with_values (fun _ => emptyFormData)
                  (with_values (set_field "image" (Some (f :: fs)))
                     (with_readers (fun rs => rs ++ [f]) s))))))).
  unfold reader_onload.
  cbn [readers with_values with_readers with_errors with_imagePreview with_fileName
       with_isSubmitting].
  rewrite list_lookup_middle by done.
  repeat split.
Qed.

(** X6. The preview is that of the read that completes last, not of the
    image that was selected last: when a second image is selected while the
    first is still being read and the second read completes first, the
    preview ends as the first image while the draft holds the second. *)
Theorem preview_follows_the_last_completed_read f fs g gs rf rg s :
  let s1 := state_after (handleImageChange (Some (f :: fs))) s in
  let s2 := state_after (handleImageChange (Some (g :: gs))) s1 in
  let s3 := state_after (reader_onload (S (length (readers s))) rg) s2 in
  let s4 := state_after (reader_onload (length (readers s)) rf) s3 in
  readers s2 = readers s ++ [f; g]
  ∧ imagePreview s3 = Some rg
  ∧ imagePreview s4 = Some rf
  ∧ image (values s4) = Some (g :: gs)
  ∧ readers s4 = readers s.
Proof.
  intros s1 s2 s3 s4.
  assert (readers s2 = readers s ++ [f; g]) as R2.
  { subst s2 s1. run_step. rewrite <- app_assoc. reflexivity. }
  assert (readers s2 !! S (length (readers s)) = Some g) as L2.
  { rewrite R2, lookup_app_r by lia.
    replace (S (length (readers s)) - length (readers s)) with 1 by lia. reflexivity. }
  assert (s3 = with_imagePreview (Some rg)
                 (with_readers (delete (S (length (readers s)))) s2)) as E3.
  { subst s3. unfold state_after. rewrite (reader_onload_pending _ _ g) by exact L2.
    reflexivity. }
  assert (readers s3 = readers s ++ [f]) as R3.
  { rewrite E3. change (delete (S (length (readers s))) (readers s2) = readers s ++ [f]).
    rewrite R2. change (readers s ++ [f; g]) with (readers s ++ [f] ++ [g]).
    rewrite app_assoc.
    replace (S (length (readers s))) with (length (readers s ++ [f]))
      by (rewrite length_app; cbn; lia).
    rewrite (delete_middle (readers s ++ [f]) [] g). apply app_nil_r. }
  assert (readers s3 !! length (readers s) = Some f) as L3.
  { rewrite R3. apply list_lookup_middle. reflexivity. }
  assert (s4 = with_imagePreview (Some rf)
                 (with_readers (delete (length (readers s))) s3)) as E4.
  { subst s4. unfold state_after. rewrite (reader_onload_pending _ _ f) by exact L3.
    reflexivity. }
  split; [exact R2|]. split; [rewrite E3; reflexivity|].
  split; [rewrite E4; reflexivity|].
  split; [rewrite E4, E3; reflexivity|].
  rewrite E4. change (delete (length (readers s)) (readers s3) = readers s).
  rewrite R3, (delete_middle (readers s) [] f). apply app_nil_r.
Qed.

(** ** Selecting files *)

(** X7. A later selection replaces an earlier one: selecting a second
    document leaves the form exactly as if only the second had been selected,
    and a second image takes the place of the first in the draft while both
    reads stay pending. *)
Theorem later_selection_replaces_earlier f fs g gs s :
  state_after (handleFileChange (Some (g :: gs)))
    (state_after (handleFileChange (Some (f :: fs))) s)
  = state_after (handleFileChange (Some (g :: gs))) s
  ∧ values (state_after (handleImageChange (Some (g :: gs)))
              (state_after (handleImageChange (Some (f :: fs))) s))
    = values (state_after (handleImageChange (Some (g :: gs))) s)
  ∧ readers (state_after (handleImageChange (Some (g :: gs)))
               (state_after (handleImageChange (Some (f :: fs))) s))
    = readers s ++ [f; g].
Proof.
  run_step. repeat split.
  rewrite <- app_assoc. reflexivity.
Qed.

(** X8. The two file inputs are independent: selecting an image and a
    document in either order leaves the same state, whether or not either
    event carries a file. *)
Theorem file_handlers_commute img doc s :
  state_after (handleFileChange doc) (state_after (handleImageChange img) s)
  = state_after (handleImageChange img) (state_after (handleFileChange doc) s).
Proof.
  unfold state_after.
  destruct img as [[|f fs]|], doc as [[|g gs]|]; reflexivity.
Qed.

(** ** Whole sessions *)

(** A property of the fresh form that every interaction preserves holds
    throughout a session. *)
Lemma session_invariant onSubmit (P : State → Prop) :
  P initialState →
  (∀ a s, P s → P (interact onSubmit a s)) →
  ∀ l, P (session onSubmit l).
Proof.
  intros H0 Hstep l. unfold session.
  generalize dependent initialState. induction l as [|a l IH]; intros s0 Hs0.
  - exact Hs0.
  - cbn [fold_left]. apply IH, Hstep, Hs0.
Qed.

Lemma session_snoc onSubmit l a :
  session onSubmit (l ++ [a]) = interact onSubmit a (session onSubmit l).
Proof. unfold session. rewrite fold_left_app. reflexivity. Qed.

Lemma set_text_files field text d :
  image (set_text field text d) = image d
  ∧ researchFile (set_text field text d) = researchFile d.
Proof.
  unfold set_text.
  destruct (String.eqb field "title"), (String.eqb field "abstract"),
    (String.eqb field "researcher"); split; reflexivity.
Qed.

Lemma click_submit_state onSubmit s :
  let s' := state_after (click_submit onSubmit) s in
  isSubmitting s' = isSubmitting s
  ∧ ((values s' = values s ∧ imagePreview s' = imagePreview s ∧ fileName s' = fileName s)
     ∨ (values s' = emptyFormData ∧ imagePreview s' = None ∧ fileName s' = None
        ∧ errors s' = ∅ ∧ isSubmitting s = false)).
Proof.
  cbv zeta. unfold state_after, click_submit, submit_disabled.
  destruct (isSubmitting s) eqn:E.
  - cbn. rewrite E. split; [reflexivity|]. left. done.
  - destruct (form_onSubmit_state onSubmit s) as (Hflag & _ & Hcases).
    unfold state_after in Hflag, Hcases. split; [exact Hflag|].
    destruct Hcases as [H | (Hv & Hp & Hn & He)]; [left; exact H | right; done].
Qed.

Lemma interact_not_submitting onSubmit a s :
  isSubmitting s = false → isSubmitting (interact onSubmit a s) = false.
Proof.
  intros H. destruct a as [field text errs | files | files | i result | |]; cbn [interact].
  - exact H.
  - destruct files as [[|f fs]|]; exact H.
  - destruct files as [[|f fs]|]; exact H.
  - unfold state_after, reader_onload. destruct (readers s !! i); exact H.
  - destruct (click_submit_state onSubmit s) as (-> & _). exact H.
  - reflexivity.
Qed.

Lemma session_not_submitting onSubmit l : isSubmitting (session onSubmit l) = false.
Proof.
  apply (session_invariant onSubmit (fun s => isSubmitting s = false)); [reflexivity|].
  intros a s. apply interact_not_submitting.
Qed.

Lemma interact_attachments_consistent onSubmit a s :
  attachments_consistent s → attachments_consistent (interact onSubmit a s).
Proof.
  unfold attachments_consistent. intros (Hi & Hr & Hn).
  destruct a as [field text errs | files | files | i result | |]; cbn [interact].
  - cbn [values fileName with_errors with_values].
    destruct (set_text_files field text (values s)) as (-> & ->). done.
  - destruct files as [[|f fs]|]; [done | | done]. run_step. done.
  - destruct files as [[|f fs]|]; [done | | done]. run_step. done.
  - unfold state_after, reader_onload. destruct (readers s !! i); done.
  - destruct (click_submit_state onSubmit s)
      as (_ & [(-> & _ & ->) | (-> & _ & -> & _)]); done.
  - run_step. done.
Qed.

(** X9. Throughout any session, neither file field of the draft holds an
    empty file list, and the file name shown is the name of the first
    document stored in the draft, absent exactly when no document is
    stored. *)
Theorem session_attachments_consistent onSubmit l :
  attachments_consistent (session onSubmit l).
Proof.
  apply session_invariant.
  - repeat split; done.
  - intros a s. apply interact_attachments_consistent.
Qed.

(** X10. Whatever was done before, pressing the clear button leaves the
    form rendered exactly as a freshly mounted one. *)
Theorem clear_renders_fresh_form onSubmit l :
  render (session onSubmit (l ++ [PressClear])) = render initialState.
Proof.
  rewrite session_snoc. cbn [interact].
  unfold render. run_step. reflexivity.
Qed.

(** X11. In any session, a submit of a valid draft whose callback returns,
    or without callback, leaves the form rendered exactly as a freshly
    mounted one. *)
Theorem successful_submit_renders_fresh_form onSubmit l :
  valid (values (session onSubmit l)) →
  returns_on onSubmit (values (session onSubmit l)) →
  render (session onSubmit (l ++ [PressSubmit])) = render initialState.
Proof.
  intros Hv Hret. rewrite session_snoc. cbn [interact].
  pose proof (session_not_submitting onSubmit l) as Hflag.
  unfold state_after, click_submit, submit_disabled. rewrite Hflag.
  destruct (form_onSubmit_returns onSubmit (session onSubmit l) Hv Hret) as (_ & Hs & _).
  unfold state_after in Hs. rewrite Hs. reflexivity.
Qed.

Lemma scenario_session_values :
  values (session accepting scenario_session)
  = {| title := title scenario_draft; abstract := abstract scenario_draft;
       researcher := researcher scenario_draft;
       image := Some [photo]; researchFile := Some [paper] |}.
Proof. reflexivity. Defined.

Lemma scenario_session_valid : valid (values (session accepting scenario_session)).
Proof.
  rewrite scenario_session_values. repeat split; [done | cbn; lia | done].
Defined.

Lemma successful_submit_renders_fresh_form_witness :
  valid (values (session accepting scenario_session))
  ∧ returns_on accepting (values (session accepting scenario_session))
  ∧ render (session accepting (scenario_session ++ [PressSubmit])) = render initialState.
Proof.
  split; [exact scenario_session_valid|].
  split; [intros cb [= <-]; reflexivity|].
  apply (successful_submit_renders_fresh_form accepting scenario_session).
  - exact scenario_session_valid.
  - intros cb [= <-]; reflexivity.
Defined.

(** X12. In any session, whenever pressing submit calls the callback, the
    draft it receives passes the schema and each of its file fields is
    either absent or holds at least one file. *)
Theorem callback_never_gets_empty_file_list onSubmit l d :
  d ∈ callback_args (events_of (click_submit onSubmit) (session onSubmit l)) →
  valid d
  ∧ (image d = None ∨ ∃ f fs, image d = Some (f :: fs))
  ∧ (researchFile d = None ∨ ∃ f fs, researchFile d = Some (f :: fs)).
Proof.
  pose proof (session_not_submitting onSubmit l) as Hflag.
  assert (attachments_consistent (session onSubmit l)) as (Hi & Hr & _).
  { apply session_invariant; [repeat split; done|].
    intros a s. apply interact_attachments_consistent. }
  unfold events_of, trace_of, click_submit, submit_disabled. rewrite Hflag.
  intros Hd.
  assert (d = values (session onSubmit l) ∧ valid d) as (-> & Hv).
  { fold (trace_of (form_onSubmit onSubmit) (session onSubmit l)) in Hd.
    fold (events_of (form_onSubmit onSubmit) (session onSubmit l)) in Hd.
    destruct (form_onSubmit_events onSubmit (session onSubmit l))
      as [(Hbad & E) | [(Hv & Hret & E) | (Hv & _ & E)]]; rewrite E in Hd.
    - by apply elem_of_nil in Hd.
    - unfold callback_events in Hd. destruct onSubmit; cbn in Hd.
      + apply list_elem_of_singleton in Hd as ->. done.
      + by apply elem_of_nil in Hd.
    - cbn in Hd. apply list_elem_of_singleton in Hd as ->. done. }
  split; [exact Hv|]. split.
  - destruct (image (values (session onSubmit l))) as [[|f fs]|]; [done | eauto | eauto].
  - destruct (researchFile (values (session onSubmit l))) as [[|f fs]|]; [done | eauto | eauto].
Qed.

Lemma scenario_session_calls :
  values (session accepting scenario_session)
  ∈ callback_args (events_of (click_submit accepting) (session accepting scenario_session)).
Proof. vm_compute. apply list_elem_of_here. Defined.

Lemma callback_never_gets_empty_file_list_witness :
  values (session accepting scenario_session)
  ∈ callback_args (events_of (click_submit accepting) (session accepting scenario_session))
  ∧ valid (values (session accepting scenario_session))
  ∧ image (values (session accepting scenario_session)) = Some [photo].
Proof.
  split; [exact scenario_session_calls|].
  split.
  - apply (callback_never_gets_empty_file_list accepting scenario_session
             (values (session accepting scenario_session))).
    exact scenario_session_calls.
  - reflexivity.
Defined.

(** X13. A successful submit does not cancel a read in flight either: when
    a valid draft with a freshly selected image is submitted before the read
    completes, the form is emptied, and the completion then sets the preview
    on the empty form. *)
Theorem read_completing_after_submit_restores_preview onSubmit f fs result s :
  valid (values s) →
  returns_on onSubmit (values (state_after (handleImageChange (Some (f :: fs))) s)) →
  let s1 := state_after (handleImageChange (Some (f :: fs))) s in
  let s2 := state_after (form_onSubmit onSubmit) s1 in
  let s3 := state_after (reader_onload (length (readers s)) result) s2 in
  values s2 = emptyFormData
  ∧ imagePreview s2 = None
  ∧ values s3 = emptyFormData
  ∧ imagePreview s3 = Some result.
Proof.
  intros Hv Hret s1 s2 s3.
  assert (valid (values s1)) as Hv1.
  { destruct Hv as (Ht & Ha & Hr). subst s1. run_step. repeat split; assumption. }
  destruct (form_onSubmit_returns onSubmit s1 Hv1 Hret) as (_ & Hs & _).
  fold s2 in Hs.
  assert (readers s2 !! length (readers s) = Some f) as L2.
  { rewrite Hs. subst s1. run_step. apply list_lookup_middle. reflexivity. }
  assert (s3 = with_imagePreview (Some result)
                 (with_readers (delete (length (readers s))) s2)) as E3.
  { subst s3. unfold state_after. rewrite (reader_onload_pending _ _ f) by exact L2.
    reflexivity. }
  rewrite E3, Hs. repeat split.
Qed.

Lemma read_completing_after_submit_restores_preview_witness :
  valid (values (editing scenario_draft))
  ∧ returns_on accepting
      (values (state_after (handleImageChange (Some [photo])) (editing scenario_draft)))
  ∧ imagePreview
      (state_after (reader_onload 0 (js "data:image/png;base64,iVBORw=="))
         (state_after (form_onSubmit accepting)
            (state_after (handleImageChange (Some [photo])) (editing scenario_draft))))
    = Some (js "data:image/png;base64,iVBORw==").
Proof.
  split; [exact scenario_draft_valid|].
  split; [intros cb [= <-]; reflexivity|].
  apply (read_completing_after_submit_restores_preview accepting photo []
           (js "data:image/png;base64,iVBORw==") (editing scenario_draft)).
  - exact scenario_draft_valid.
  - intros cb [= <-]; reflexivity.
Defined.

(** X14. Once a document is selected the form shows its name, and once the
    read of a selected image completes the form shows the result as the
    preview; an empty name or an empty result is falsy and leaves the prompt
    in place. *)
Theorem selected_files_are_shown f fs result s :
  file_label (render (state_after (handleFileChange (Some (f :: fs))) s))
  = match name f with
    | [] => FilePrompt "เลือกไฟล์งานวิจัย (PDF, DOC, DOCX)"
    | _ :: _ => ShownName (name f)
    end
  ∧ image_area
      (render (state_after (reader_onload (length (readers s)) result)
                 (state_after (handleImageChange (Some (f :: fs))) s)))
    = match result with
      | [] => UploadPrompt "คลิกเพื่อเลือกรูปภาพ หรือลากไฟล์มาวาง"
      | _ :: _ => Preview result "คลิกเพื่อเปลี่ยนรูปภาพ"
      end.
Proof.
  split.
  - run_step. destruct (name f); reflexivity.
  - assert (readers (state_after (handleImageChange (Some (f :: fs))) s)
            !! length (readers s) = Some f) as L.
    { run_step. apply list_lookup_middle. reflexivity. }
    unfold state_after at 1. rewrite (reader_onload_pending _ _ f) by exact L.
    unfold render. cbn [fst snd imagePreview with_imagePreview image_area].
    destruct result; reflexivity.
Qed.


(** ** The submitting flag *)

Lemma form_onSubmit_returns_flagged onSubmit s :
  valid (values s) → returns_on onSubmit (values s) →
  flagged (trace_of (form_onSubmit onSubmit) s)
  = [ (Validate (values s), true);
      (ConsoleLog "ข้อมูลที่ส่ง:" (values s), true);
      (Toast success_toast, true) ]
    ++ map (fun e => (e, true)) (callback_events onSubmit (values s))
    ++ [ (Reset, false); (SetImagePreview None, false); (SetFileName None, false) ].
Proof.
  intros Hv Hret.
  pose proof (handleFormSubmit_returns onSubmit (values s)
                (with_errors ∅ (with_isSubmitting true s)) Hret) as (_ & _ & Ht).
  unfold trace_of in *.
  unfold form_onSubmit. rewrite handleSubmit_valid by (apply resolver_valid, Hv).
  cbv zeta. cbn [fst snd]. rewrite Ht.
  unfold callback_events. destruct onSubmit; reflexivity.
Qed.

(** C8. A submit attempt raises [isSubmitting] before anything else.  The
    flag is true after the validation and after every step of the handler up
    to its call of [reset]: the log record, the success notification and the
    call of the callback, and also the failure notification when the callback
    throws.  [reset] lowers it, so that it is false after [reset] and after
    the two setters that follow.  The attempt always completes and leaves the
    flag false, whether the draft is valid or not and whatever the callback
    does.  While the flag is true the submit button is disabled and a click
    on it does nothing; when it is false the click submits the form. *)
Theorem isSubmitting_until_reset onSubmit s :
  let d := values s in
  let run := flagged (trace_of (form_onSubmit onSubmit) s) in
  ((¬ valid d ∧ run = [ (Validate d, true) ])
   ∨ (valid d ∧ returns_on onSubmit d
      ∧ run = [ (Validate d, true); (ConsoleLog "ข้อมูลที่ส่ง:" d, true);
                (Toast success_toast, true) ]
              ++ map (fun e => (e, true)) (callback_events onSubmit d)
              ++ [ (Reset, false); (SetImagePreview None, false);
                   (SetFileName None, false) ])
   ∨ (valid d ∧ (∃ cb, onSubmit = Some cb ∧ cb d = Throws)
      ∧ run = [ (Validate d, true); (ConsoleLog "ข้อมูลที่ส่ง:" d, true);
                (Toast success_toast, true); (OnSubmit d, true);
                (Toast failure_toast, true) ]))
  ∧ result_of (form_onSubmit onSubmit) s = Ok ()
  ∧ isSubmitting (state_after (form_onSubmit onSubmit) s) = false
  ∧ submit_disabled (with_isSubmitting true s) = true
  ∧ click_submit onSubmit (with_isSubmitting true s) = (Ok (), with_isSubmitting true s, [])
  ∧ click_submit onSubmit (with_isSubmitting false s)
    = form_onSubmit onSubmit (with_isSubmitting false s).
Proof.
  cbv zeta.
  split; [|split; [|split; [|repeat split]]].
  - destruct (valid_or_not (values s)) as [Hv | Hbad].
    + destruct (callback_returns_or_throws onSubmit (values s))
        as [Hret | (cb & -> & Hthrow)].
      * right; left. split; [done|]. split; [done|].
        apply form_onSubmit_returns_flagged; assumption.
      * right; right. split; [done|]. split; [eauto|].
        unfold trace_of. rewrite form_onSubmit_throws by done. reflexivity.
    + left. split; [done|].
      unfold trace_of. rewrite form_onSubmit_blocked by done. reflexivity.
  - unfold result_of, form_onSubmit, handleSubmit, mbind, M_bind, perform, skip.
    cbn [fst snd].
    destruct (decide (resolver (values (with_isSubmitting true s)) = ∅)); [|reflexivity].
    pose proof (handleFormSubmit_completes onSubmit (values (with_isSubmitting true s))
                  (with_errors (resolver (values (with_isSubmitting true s)))
                     (with_isSubmitting true s))) as Hr.
    unfold result_of in Hr.
    destruct (handleFormSubmit onSubmit _ _) as [[r s2] t]. cbn in Hr. subst r. reflexivity.
  - apply (form_onSubmit_state onSubmit s).
Qed.

(** C8, as first stated: the flag does not stay true during the whole run
    of the handler.  On the scenario draft with a callback that returns, it
    is true after the validation, the log record, the success notification
    and the callback, and false after [reset] and the two setters. *)
Lemma reset_lowers_isSubmitting_in_handler :
  valid (values (editing scenario_draft))
  ∧ map (fun st => isSubmitting (after st))
      (trace_of (form_onSubmit accepting) (editing scenario_draft))
    = [true; true; true; true; false; false; false]
  ∧ ¬ Forall (fun st => isSubmitting (after st) = true)
        (trace_of (form_onSubmit accepting) (editing scenario_draft)).
Proof.
  split; [exact scenario_draft_valid|]. split; [vm_compute; reflexivity|].
  intros H. rewrite Forall_lookup in H. specialize (H 4).
  vm_compute in H. specialize (H _ eq_refl). discriminate H.
Qed.
